(** * Race coordinator [Get] of package main (task.go) and its test double

    The development embeds task.go and task_test.go:
    - the Go values the package handles (errors, contexts, durations);
    - a small monad for Go calls: a call runs in a world (clock and record
      of the calls made through the [Getter] interface), may have several
      outcomes (a [select] with two ready cases), and an outcome either
      returns or panics;
    - the interface [Getter], the function [Get], the test double
      [MockGetter] and the table of [TestGet];
    - the properties of [Get];
    - the behaviour of the test double and of the rows of [TestGet]. *)

From Stdlib Require Import ZArith.
From stdpp Require Import base option list strings gmap.

Local Open Scope Z_scope.

(** ** Go values *)

(** The two sentinel errors of package context. *)
Inductive ctxError : Type :=
| Canceled            (* context.Canceled *)
| DeadlineExceeded.   (* context.DeadlineExceeded *)

(** A non-nil value of the interface type [error]: either a value made by
    [errors.New], or one of the sentinels.  The nil error is [None] in
    [option error]. *)
Inductive error : Type :=
| errorString (s : string)
| ctxErr (e : ctxError).

Definition ctxError_eqb (a b : ctxError) : bool :=
  match a, b with
  | Canceled, Canceled => true
  | DeadlineExceeded, DeadlineExceeded => true
  | _, _ => false
  end.

(** [errors.Is(err, target)] for a sentinel [target].  None of the errors
    above wraps another one, so the chain of [err] is [err] itself; a nil
    [err] and an [errors.New] value differ from every sentinel. *)
Definition errors_Is (err : option error) (target : ctxError) : bool :=
  match err with
  | Some (ctxErr e) => ctxError_eqb e target
  | Some (errorString _) => false
  | None => false
  end.

(** [time.Duration] is a count of nanoseconds; instants are nanoseconds on
    the clock of the world. *)
Definition Duration := Z.
Definition Millisecond : Duration := 1000000.

(** ** Worlds, outcomes and the monad of calls *)

(** [now] is the clock.  [calls] records, newest first, the (address, key)
    of every call made through the [Getter] interface. *)
Record World : Type := mkWorld { now : Z; calls : list (string * string) }.

Definition advance (t : Z) (w : World) : World :=
  {| now := Z.max t (now w); calls := calls w |}.

Definition record_call (address key : string) (w : World) : World :=
  {| now := now w; calls := (address, key) :: calls w |}.

Inductive Outcome (A : Type) : Type :=
| Returned (a : A) (w : World)
| Panicked (w : World).
Arguments Returned {A} a w.
Arguments Panicked {A} w.

Definition outcome_world {A} (o : Outcome A) : World :=
  match o with Returned _ w => w | Panicked w => w end.

Definition outcome_value {A} (o : Outcome A) : option A :=
  match o with Returned a _ => Some a | Panicked _ => None end.

(** A call maps the world it starts in to its possible outcomes; the empty
    list is a call that never comes back. *)
Definition M (A : Type) : Type := World -> list (Outcome A).

Definition ret {A} (a : A) : M A := fun w => [Returned a w].

Definition bind {A B} (m : M A) (f : A -> M B) : M B := fun w =>
  concat (map (fun o => match o with
                        | Returned a w' => f a w'
                        | Panicked w' => [Panicked w']
                        end) (m w)).

Definition panic {A} : M A := fun w => [Panicked w].

Notation "x <- m ;; k" := (bind m (fun x => k))
  (at level 100, m at next level, right associativity).
Notation "' ( x , y ) <- m ;; k" := (bind m (fun '(x, y) => k))
  (at level 100, m at next level, right associativity).

(** ** Package context *)

(** A context is known by the instant its [Done] channel closes (never, for
    [None]) and by the error [Err] reports from then on. *)
Record Context : Type := mkContext { done_at : option Z; done_err : ctxError }.

Definition Background : Context := {| done_at := None; done_err := Canceled |}.

(** [ctx.Err()]: nil until [Done] is closed. *)
Definition Context_Err (ctx : Context) : M (option error) := fun w =>
  match done_at ctx with
  | Some d => if d <=? now w then ret (Some (ctxErr (done_err ctx))) w else ret None w
  | None => ret None w
  end.

(** [context.WithTimeout(parent, timeout)]: the deadline is [timeout] from
    now, unless the parent is done sooner.  The [cancel] function it also
    returns is only deferred by the caller below, past every check. *)
Definition WithTimeout (parent : Context) (timeout : Duration) : M Context := fun w =>
  let d := now w + timeout in
  let child := {| done_at := Some d; done_err := DeadlineExceeded |} in
  match done_at parent with
  | Some p => if p <? d then ret parent w else ret child w
  | None => ret child w
  end.

(** The [select] of the test double: wait for [time.After(d)] or for
    [ctx.Done()], whichever is ready first; when both become ready at the
    same instant either case may be taken. *)
Inductive selected : Type := After_fired | Done_closed.

Definition select_After_Done (d : Duration) (ctx : Context) : M selected := fun w =>
  let t := now w + Z.max d 0 in
  match done_at ctx with
  | None => [Returned After_fired (advance t w)]
  | Some c =>
      let c := Z.max c (now w) in
      if c <? t then [Returned Done_closed (advance c w)]
      else if t <? c then [Returned After_fired (advance t w)]
      else [Returned After_fired (advance t w); Returned Done_closed (advance t w)]
  end.

(** ** task.go *)

(** type Getter interface { Get(ctx, address, key) (string, error) }:
    a non-nil interface value is its method, closed over the receiver. *)
Record Getter : Type := mkGetter {
  Getter_Get : Context -> string -> string -> M (string * option error)
}.

(** The call [getter.Get(ctx, address, key)] on an interface value, which
    may be nil: the call is recorded in the world, and a nil interface
    panics. *)
Definition Getter_call (getter : option Getter) (ctx : Context) (address key : string)
  : M (string * option error) :=
  match getter with
  | None => panic
  | Some g => fun w => Getter_Get g ctx address key (record_call address key w)
  end.

(** func Get(ctx context.Context, getter Getter, addresses []string, key string) (string, error) *)
Definition Get (ctx : Context) (getter : option Getter) (addresses : list string)
  (key : string) : M (string * option error) :=
  ret (""%string, None).

(** ** task_test.go *)

Record Response : Type := mkResponse {
  Value : string;
  Error : option error;
  Delay : Duration
}.

Record MockGetter : Type := mkMockGetter {
  Responses : gmap string (gmap string Response)
}.

Definition NewMockGetter (responses : gmap string (gmap string Response)) : MockGetter :=
  {| Responses := responses |}.

Definition key_not_found : M (string * option error) :=
  ret (""%string, Some (errorString "key not found")).

(** func (m *MockGetter) Get(ctx context.Context, address, key string) (string, error) *)
Definition MockGetter_Get (m : MockGetter) (ctx : Context) (address key : string)
  : M (string * option error) :=
  match Responses m !! address with
  | Some responses =>
      match responses !! key with
      | Some resp =>
          s <- (if 0 <? Delay resp then select_After_Done (Delay resp) ctx
                else ret After_fired) ;;
          match s with
          | Done_closed => e <- Context_Err ctx ;; ret (""%string, e)
          | After_fired =>
              match Error resp with
              | Some e => ret (""%string, Some e)
              | None => ret (Value resp, None)
              end
          end
      | None => key_not_found
      end
  | None => key_not_found
  end.

(** var getter Getter = mock *)
Definition MockGetter_Getter (m : MockGetter) : option Getter :=
  Some {| Getter_Get := MockGetter_Get m |}.

(** func TestGet(t *testing.T): the table, and the body run for each row. *)
Module TestGet.

Record case : Type := mkCase {
  name : string;
  responses : gmap string (gmap string Response);
  addresses : list string;
  key : string;
  ttl : Duration;
  wantValue : string;
  wantErr : bool;
  wantErrIs : option ctxError
}.

(** Response literals of the table; the fields left out are zero.  The
    rows are named after their [name] field. *)
Definition failing (msg : string) : Response :=
  {| Value := ""; Error := Some (errorString msg); Delay := 0 |}.
Definition valued (v : string) (delay : Duration) : Response :=
  {| Value := v; Error := None; Delay := delay |}.

Definition first_fails_second_succeeds : case :=
  {| name := "первый адрес падает, второй успешен";
   responses := {[ "addr1"%string := {[ "key1"%string := failing "connection error" ]};
                   "addr2"%string := {[ "key1"%string := valued "value2" 0 ]} ]};
   addresses := ["addr1"; "addr2"]%string;
   key := "key1";
   ttl := 50 * Millisecond;
   wantValue := "value2";
   wantErr := false;
   wantErrIs := None |}.

Definition all_fail : case :=
  {| name := "все адреса падают";
   responses := {[ "addr1"%string := {[ "key1"%string := failing "error 1" ]};
                   "addr2"%string := {[ "key1"%string := failing "error 2" ]} ]};
   addresses := ["addr1"; "addr2"]%string;
   key := "key1";
   ttl := 50 * Millisecond;
   wantValue := "";
   wantErr := true;
   wantErrIs := None |}.

Definition context_cancel : case :=
  {| name := "отмена контекста";
   responses := {[ "addr1"%string :=
                     {[ "key1"%string := valued "value1" (200 * Millisecond) ]} ]};
   addresses := ["addr1"]%string;
   key := "key1";
   ttl := 50 * Millisecond;
   wantValue := "";
   wantErr := true;
   wantErrIs := Some Canceled |}.

Definition fast_beats_slow : case :=
  {| name := "быстрый адрес побеждает медленный";
   responses := {[ "addr1"%string :=
                     {[ "key1"%string := valued "value1" (200 * Millisecond) ]};
                   "addr2"%string :=
                     {[ "key1"%string := valued "value2" (50 * Millisecond) ]} ]};
   addresses := ["addr1"; "addr2"]%string;
   key := "key1";
   ttl := 300 * Millisecond;
   wantValue := "value2";
   wantErr := false;
   wantErrIs := None |}.

Definition no_addresses : case :=
  {| name := "пустой список адресов";
   responses := ∅;
   addresses := [];
   key := "key1";
   ttl := 50 * Millisecond;
   wantValue := "";
   wantErr := false;
   wantErrIs := None |}.

Definition mixed_errors_one_success : case :=
  {| name := "смешанные ошибки: key not found, connection error и один успех";
   responses := {[ "addr1"%string := ∅;
                   "addr2"%string := {[ "key1"%string := failing "connection error" ]};
                   "addr3"%string := {[ "key1"%string := valued "value3" 0 ]} ]};
   addresses := ["addr1"; "addr2"; "addr3"]%string;
   key := "key1";
   ttl := 200 * Millisecond;
   wantValue := "value3";
   wantErr := false;
   wantErrIs := None |}.

Definition single_address_key_absent : case :=
  {| name := "один адрес, ключ отсутствует";
   responses := {[ "addr1"%string := ∅ ]};
   addresses := ["addr1"]%string;
   key := "key1";
   ttl := 50 * Millisecond;
   wantValue := "";
   wantErr := true;
   wantErrIs := None |}.

Definition duplicate_addresses : case :=
  {| name := "дубликаты адресов: первые два падают, третий успешен";
   responses := {[ "addr1"%string := {[ "key1"%string := failing "err" ]};
                   "addr2"%string := {[ "key1"%string := valued "value2" 0 ]} ]};
   addresses := ["addr1"; "addr1"; "addr2"]%string;
   key := "key1";
   ttl := 100 * Millisecond;
   wantValue := "value2";
   wantErr := false;
   wantErrIs := None |}.

Definition tests : list case := [
  first_fails_second_succeeds;
  all_fail;
  context_cancel;
  fast_beats_slow;
  no_addresses;
  mixed_errors_one_success;
  single_address_key_absent;
  duplicate_addresses
].

(** What a row reports: nothing, or the [t.Fatalf] it stops at. *)
Inductive verdict : Type :=
| pass
| Fatalf_error (err : option error) (want : bool)
| Fatalf_Is (err : option error) (want : ctxError)
| Fatalf_value (got want : string).

Definition not_nil (err : option error) : bool :=
  match err with Some _ => true | None => false end.

(** The function literal handed to [t.Run]. *)
Definition run (tt : case) : M verdict :=
  let mock := NewMockGetter (responses tt) in
  let getter := MockGetter_Getter mock in
  ctx <- WithTimeout Background (ttl tt) ;;
  '(got, err) <- Get ctx getter (addresses tt) (key tt) ;;
  if negb (Bool.eqb (not_nil err) (wantErr tt)) then
    ret (Fatalf_error err (wantErr tt))
  else
    match wantErrIs tt with
    | Some target =>
        if negb (errors_Is err target) then ret (Fatalf_Is err target)
        else if negb (String.eqb got (wantValue tt)) then ret (Fatalf_value got (wantValue tt))
        else ret pass
    | None =>
        if negb (String.eqb got (wantValue tt)) then ret (Fatalf_value got (wantValue tt))
        else ret pass
    end.

(** for _, tt := range tests { t.Run(tt.name, ...) }: the rows run one after
    the other, a [t.Fatalf] ending its own row only. *)
Fixpoint run_rows (rows : list case) : M (list verdict) :=
  match rows with
  | [] => ret []
  | row :: rest => v <- run row ;; vs <- run_rows rest ;; ret (v :: vs)
  end.

(** The getter a row passes to [Get]. *)
Definition getter_of (tt : case) : option Getter :=
  MockGetter_Getter (NewMockGetter (responses tt)).

End TestGet.

(** The world a test row starts in. *)
Definition w0 : World := {| now := 0; calls := [] |}.

(** ** Vocabulary of the properties *)

(** The context [WithTimeout] derives from [Background]: done at instant
    [d], with the deadline error. *)
Definition deadline_ctx (d : Z) : Context :=
  {| done_at := Some d; done_err := DeadlineExceeded |}.

(** An instant lies before the context is done. *)
Definition before_done (ctx : Context) (t : Z) : bool :=
  match done_at ctx with
  | Some d => t <? d
  | None => true
  end.

(** A fetch attempt is one call through the interface.  An outcome of it is
    a success with value [v], or a failure, when it returns so before the
    context is done; it is cut short when it returns the error of the
    context. *)
Definition succeeds_with (v : string) (ctx : Context)
  (o : Outcome (string * option error)) : bool :=
  match o with
  | Returned (v', None) w => String.eqb v' v && before_done ctx (now w)
  | _ => false
  end.

Definition fails_in_time (ctx : Context) (o : Outcome (string * option error)) : bool :=
  match o with
  | Returned (_, Some (errorString _)) w => before_done ctx (now w)
  | _ => false
  end.

Definition cut_short (ctx : Context) (o : Outcome (string * option error)) : bool :=
  match o with
  | Returned (_, Some (ctxErr e)) w =>
      ctxError_eqb e (done_err ctx) && negb (before_done ctx (now w))
  | _ => false
  end.

(** The attempt comes back, and every outcome it can have satisfies [p]. *)
Definition attempt_always (p : Outcome (string * option error) -> bool)
  (getter : option Getter) (ctx : Context) (address key : string) (w : World) : bool :=
  match Getter_call getter ctx address key w with
  | [] => false
  | os => forallb p os
  end.

(** The instants at which the attempt can come back. *)
Definition completion_times (getter : option Getter) (ctx : Context)
  (address key : string) (w : World) : list Z :=
  map (fun o => now (outcome_world o)) (Getter_call getter ctx address key w).

(** The addresses called through the interface between world [w] and a
    later world [w'], oldest first. *)
Definition addresses_queried (w w' : World) : list string :=
  reverse (take (length (calls w') - length (calls w))%nat (calls w')).*1.

(** The address list without its repetitions, each address at the place of
    its first occurrence, as the specification words it. *)
Fixpoint spec_dedup_from (seen : list string) (addresses : list string) : list string :=
  match addresses with
  | [] => []
  | a :: rest =>
      if bool_decide (a ∈ seen) then spec_dedup_from seen rest
      else a :: spec_dedup_from (a :: seen) rest
  end.

Definition spec_dedup (addresses : list string) : list string :=
  spec_dedup_from [] addresses.

(** A call comes back, does not panic, and every world it can end in
    satisfies [P]. *)
Definition returns_in {A} (P : World -> Prop) (os : list (Outcome A)) : Prop :=
  os ≠ [] ∧ Forall (fun o => ∃ a w', o = Returned a w' ∧ P w') os.

(** The response the test double holds for an address and a key, if any,
    and the result it gives once the response's delay is over. *)
Definition stored (m : MockGetter) (address key : string) : option Response :=
  Responses m !! address ≫= (.!! key).

Definition served (resp : Response) : string * option error :=
  match Error resp with
  | Some e => (""%string, Some e)
  | None => (Value resp, None)
  end.

(** ** The monad *)

Lemma bind_ret_l {A B} (a : A) (f : A -> M B) (w : World) :
  bind (ret a) f w = f a w.
Proof. unfold bind, ret. simpl. apply app_nil_r. Qed.

Lemma bind_ret_r {A} (m : M A) (w : World) : bind m ret w = m w.
Proof.
  unfold bind. induction (m w) as [|o os IH]; simpl; [done|].
  rewrite IH. by destruct o.
Qed.

Lemma bind_panic {A B} (f : A -> M B) (w : World) : bind panic f w = [Panicked w].
Proof. reflexivity. Qed.

(** ** The context *)

Lemma WithTimeout_Background (t : Duration) (w : World) :
  WithTimeout Background t w = [Returned (deadline_ctx (now w + t)) w].
Proof. reflexivity. Qed.

Lemma Context_Err_world (ctx : Context) (w : World) :
  ∃ e, Context_Err ctx w = [Returned e w].
Proof.
  unfold Context_Err. destruct (done_at ctx) as [d|]; [|by eexists].
  destruct (d <=? now w); by eexists.
Qed.

(** The [select] comes back, never panics, leaves the record of calls alone
    and does not turn the clock back. *)
Lemma select_After_Done_returns (d : Duration) (ctx : Context) (w : World) :
  returns_in (fun w' => calls w' = calls w ∧ now w <= now w') (select_After_Done d ctx w).
Proof.
  unfold select_After_Done, returns_in.
  destruct (done_at ctx) as [c|]; [|split; [done|]].
  - destruct (Z.max c (now w) <? now w + Z.max d 0);
      [|destruct (now w + Z.max d 0 <? Z.max c (now w))];
      (split; [done|]); repeat constructor;
      eexists _, _; (split; [reflexivity|]); simpl; split; (done || lia).
  - repeat constructor. eexists _, _. split; [reflexivity|]. simpl. split; (done || lia).
Qed.

Lemma returns_in_ret {A} (P : World -> Prop) (a : A) (w : World) :
  P w → returns_in P (ret a w).
Proof. intros HP. split; [done|]. repeat constructor. by eexists _, _. Qed.

Lemma returns_in_bind {A B} (P Q : World -> Prop) (m : M A) (f : A -> M B) (w : World) :
  returns_in P (m w) →
  (∀ a w', P w' → returns_in Q (f a w')) →
  returns_in Q (bind m f w).
Proof.
  intros [Hne Hall] Hf. unfold bind.
  induction Hall as [|o os (a & w' & -> & HP) _ IH]; [done|].
  simpl. destruct (Hf a w' HP) as [Hne' Hall']. split.
  - destruct (f a w'); [done|]. discriminate.
  - apply Forall_app. split; [done|].
    destruct os as [|o' os']; [constructor|]. by apply IH.
Qed.

(** ** The test double *)

Lemma MockGetter_Get_returns (m : MockGetter) (ctx : Context) (address key : string)
  (w : World) :
  returns_in (fun w' => calls w' = calls w ∧ now w <= now w')
             (MockGetter_Get m ctx address key w).
Proof.
  unfold MockGetter_Get, key_not_found.
  destruct (Responses m !! address) as [rs|]; [|by apply returns_in_ret].
  destruct (rs !! key) as [resp|]; [|by apply returns_in_ret].
  eapply returns_in_bind.
  - destruct (0 <? Delay resp); [apply select_After_Done_returns|by apply returns_in_ret].
  - intros s w' [Hc Hn]. simpl in *. destruct s.
    + destruct (Error resp); apply returns_in_ret; by rewrite Hc.
    + destruct (Context_Err_world ctx w') as [e He].
      unfold bind. rewrite He. simpl. apply returns_in_ret. by rewrite Hc.
Qed.

(** A call of the test double through the interface comes back with the
    call recorded, once. *)
Lemma MockGetter_call_recorded (m : MockGetter) (ctx : Context) (address key : string)
  (w : World) :
  returns_in (fun w' => calls w' = (address, key) :: calls w)
             (Getter_call (MockGetter_Getter m) ctx address key w).
Proof.
  unfold Getter_call, MockGetter_Getter. simpl.
  destruct (MockGetter_Get_returns m ctx address key (record_call address key w))
    as [Hne Hall].
  split; [done|]. eapply Forall_impl; [exact Hall|].
  intros o (a & w' & -> & Hc & _). by eexists _, _.
Qed.

(** A call on the nil interface panics. *)
Lemma nil_Getter_call (ctx : Context) (address key : string) (w : World) :
  Getter_call None ctx address key w = [Panicked w].
Proof. reflexivity. Qed.

(** ** The record of calls *)

Lemma addresses_queried_same (w : World) : addresses_queried w w = [].
Proof. unfold addresses_queried. by rewrite Nat.sub_diag. Qed.

Lemma addresses_queried_one (w w' : World) (address key : string) :
  calls w' = (address, key) :: calls w → addresses_queried w w' = [address].
Proof.
  intros Hc. unfold addresses_queried. rewrite Hc. simpl length.
  by replace (S (length (calls w)) - length (calls w))%nat with 1%nat by lia.
Qed.

(** ** The address list without repetitions *)

Lemma spec_dedup_from_nil (seen addresses : list string) :
  (∀ a, a ∈ addresses → a ∈ seen) ↔ spec_dedup_from seen addresses = [].
Proof.
  revert seen. induction addresses as [|a rest IH]; intros seen; simpl.
  - split; [done|]. intros _ a Ha. by apply elem_of_nil in Ha.
  - case_bool_decide as Hin.
    + rewrite <- IH. split.
      * intros H b Hb. apply H. by right.
      * intros H b Hb. apply elem_of_cons in Hb as [->|Hb]; [done|by apply H].
    + split; [|done]. intros H. destruct Hin. apply H. by left.
Qed.

Lemma spec_dedup_nil (addresses : list string) :
  spec_dedup addresses = [] ↔ addresses = [].
Proof.
  unfold spec_dedup. rewrite <- spec_dedup_from_nil. split.
  - destruct addresses as [|a rest]; [done|].
    intros H. specialize (H a (list_elem_of_here a rest)). by apply elem_of_nil in H.
  - intros -> a Ha. by apply elem_of_nil in Ha.
Qed.

Lemma spec_dedup_from_fresh (seen addresses : list string) (a : string) :
  a ∈ spec_dedup_from seen addresses → a ∈ addresses ∧ a ∉ seen.
Proof.
  revert seen. induction addresses as [|b rest IH]; intros seen; simpl.
  - intros H. by apply elem_of_nil in H.
  - case_bool_decide as Hin.
    + intros H. destruct (IH _ H) as [H1 H2]. split; [by right|done].
    + intros H. apply elem_of_cons in H as [->|H].
      * split; [by left|done].
      * destruct (IH _ H) as [H1 H2]. split; [by right|].
        intros Hs. apply H2. by right.
Qed.

Lemma spec_dedup_from_NoDup (seen addresses : list string) :
  NoDup (spec_dedup_from seen addresses).
Proof.
  revert seen. induction addresses as [|b rest IH]; intros seen; simpl.
  - constructor.
  - case_bool_decide as Hin; [apply IH|].
    constructor; [|apply IH].
    intros H. apply spec_dedup_from_fresh in H as [_ H]. apply H. by left.
Qed.

Lemma spec_dedup_NoDup (addresses : list string) : NoDup (spec_dedup addresses).
Proof. apply spec_dedup_from_NoDup. Qed.

(** ** [Get] *)

Lemma Get_unfold (ctx : Context) (getter : option Getter) (addresses : list string)
  (key : string) (w : World) :
  Get ctx getter addresses key w = [Returned (""%string, None) w].
Proof. reflexivity. Qed.

(** *** What [Get] does on every input *)

(** C5: when the address list is empty, or is empty once its repetitions
    are removed, [Get] returns at once (the clock and the record of calls
    are as before) the empty string and a nil error, whatever the context,
    the getter and the key. *)
Theorem Get_no_addresses (ctx : Context) (getter : option Getter)
  (addresses : list string) (key : string) (w : World) :
  addresses = [] ∨ spec_dedup addresses = [] →
  Get ctx getter addresses key w = [Returned (""%string, None) w].
Proof.
  intros [->| ->%spec_dedup_nil]; apply Get_unfold.
Qed.

Lemma Get_no_addresses_witness :
  (@nil string = [] ∨ spec_dedup [] = []) ∧
  Get (deadline_ctx (50 * Millisecond)) (TestGet.getter_of TestGet.no_addresses)
      [] "key1" w0
  = [Returned (""%string, None) w0].
Proof.
  split; [left; reflexivity|].
  apply (Get_no_addresses _ _ [] "key1" w0). left. reflexivity.
Defined.

(** C6: within one invocation of [Get] no address is called twice through
    the interface: the addresses called form a list without repetition,
    and a sublist of the address list with its repetitions removed in
    first-occurrence order. *)
Theorem Get_queries_each_address_at_most_once (ctx : Context) (getter : option Getter)
  (addresses : list string) (key : string) (w : World) :
  Forall (fun o =>
            NoDup (addresses_queried w (outcome_world o)) ∧
            addresses_queried w (outcome_world o) `sublist_of` spec_dedup addresses)
         (Get ctx getter addresses key w).
Proof.
  rewrite Get_unfold. constructor; [|constructor].
  simpl. rewrite addresses_queried_same. split; [constructor|apply sublist_nil_l].
Qed.

(** C7: [Get] never panics, whatever the getter does (fail, panic, or be
    the nil interface): it comes back exactly once, with one pair of a
    value and at most one error. *)
Theorem Get_never_panics (ctx : Context) (getter : option Getter)
  (addresses : list string) (key : string) (w : World) :
  Forall (fun o => ∀ w', o ≠ Panicked w') (Get ctx getter addresses key w) ∧
  ∃ (value : string) (err : option error) (w' : World),
    Get ctx getter addresses key w = [Returned (value, err) w'].
Proof.
  rewrite Get_unfold. split.
  - constructor; [|constructor]. intros w'. discriminate.
  - by eexists _, _, _.
Qed.

(** C9: on every context, getter, address list and key, [Get] returns the
    pair of the empty string and the nil error, and nothing else. *)
Theorem Get_returns_empty_nil (ctx : Context) (getter : option Getter)
  (addresses : list string) (key : string) (w : World) :
  Get ctx getter addresses key w ≠ [] ∧
  Forall (fun o => outcome_value o = Some (""%string, None))
         (Get ctx getter addresses key w).
Proof.
  rewrite Get_unfold. split; [discriminate|]. by repeat constructor.
Qed.

(** C10: [Get] makes no call through the getter and has no effect: every
    outcome leaves the world (clock and record of calls) as it was, and
    the values returned do not depend on the context, the getter, the
    addresses, the key or the world. *)
Theorem Get_frame (ctx1 ctx2 : Context) (getter1 getter2 : option Getter)
  (addresses1 addresses2 : list string) (key1 key2 : string) (w1 w2 : World) :
  Forall (fun o => outcome_world o = w1 ∧ addresses_queried w1 (outcome_world o) = [])
         (Get ctx1 getter1 addresses1 key1 w1) ∧
  map outcome_value (Get ctx1 getter1 addresses1 key1 w1)
  = map outcome_value (Get ctx2 getter2 addresses2 key2 w2).
Proof.
  rewrite !Get_unfold. split; [|reflexivity].
  constructor; [|constructor]. simpl. split; [reflexivity|apply addresses_queried_same].
Qed.

(** *** Where [Get] departs from TestGet *)

(** Of the eight rows, only "empty address list" reports nothing. *)
Lemma TestGet_verdicts :
  TestGet.run_rows TestGet.tests w0
  = [Returned [TestGet.Fatalf_value "" "value2";
               TestGet.Fatalf_error None true;
               TestGet.Fatalf_error None true;
               TestGet.Fatalf_value "" "value2";
               TestGet.pass;
               TestGet.Fatalf_value "" "value3";
               TestGet.Fatalf_error None true;
               TestGet.Fatalf_value "" "value2"] w0].
Proof. vm_compute. reflexivity. Qed.

(** C1: on the row "first address fails, second succeeds", the attempt at
    addr1 fails and the attempt at addr2 succeeds with "value2", both at
    once and before the deadline of 50ms; [Get] returns the empty string
    with a nil error, and the row stops at its check of the value. *)
Theorem Get_misses_the_successful_attempt :
  let tt := TestGet.first_fails_second_succeeds in
  let ctx := deadline_ctx (TestGet.ttl tt) in
  let getter := TestGet.getter_of tt in
  WithTimeout Background (TestGet.ttl tt) w0 = [Returned ctx w0] ∧
  attempt_always (fails_in_time ctx) getter ctx "addr1" (TestGet.key tt) w0 = true ∧
  attempt_always (succeeds_with "value2" ctx) getter ctx "addr2" (TestGet.key tt) w0 = true ∧
  Get ctx getter (TestGet.addresses tt) (TestGet.key tt) w0
  = [Returned (""%string, None) w0] ∧
  TestGet.run tt w0 = [Returned (TestGet.Fatalf_value "" "value2") w0].
Proof. vm_compute. repeat split. Qed.

(** C2: on the row "all addresses fail", both attempts fail before the
    deadline of 50ms; [Get] returns a nil error, and the row stops at its
    check of the error. *)
Theorem Get_reports_no_error_when_all_fail :
  let tt := TestGet.all_fail in
  let ctx := deadline_ctx (TestGet.ttl tt) in
  let getter := TestGet.getter_of tt in
  WithTimeout Background (TestGet.ttl tt) w0 = [Returned ctx w0] ∧
  forallb (fun a => attempt_always (fails_in_time ctx) getter ctx a (TestGet.key tt) w0)
          (TestGet.addresses tt) = true ∧
  map outcome_value (Get ctx getter (TestGet.addresses tt) (TestGet.key tt) w0)
  = [Some (""%string, None)] ∧
  TestGet.run tt w0 = [Returned (TestGet.Fatalf_error None true) w0].
Proof. vm_compute. repeat split. Qed.

(** C3: on the row "context cancel", the only attempt would succeed after
    200ms, and under the deadline of 50ms it is cut short at 50ms with the
    error of the context; [Get] returns a nil error, which matches neither
    sentinel of package context, and the row stops at its check of the
    error. *)
Theorem Get_reports_no_cancellation :
  let tt := TestGet.context_cancel in
  let ctx := deadline_ctx (TestGet.ttl tt) in
  let getter := TestGet.getter_of tt in
  WithTimeout Background (TestGet.ttl tt) w0 = [Returned ctx w0] ∧
  completion_times getter Background "addr1" (TestGet.key tt) w0 = [200 * Millisecond] ∧
  attempt_always (succeeds_with "value1" Background) getter Background
                 "addr1" (TestGet.key tt) w0 = true ∧
  completion_times getter ctx "addr1" (TestGet.key tt) w0 = [50 * Millisecond] ∧
  attempt_always (cut_short ctx) getter ctx "addr1" (TestGet.key tt) w0 = true ∧
  Forall (fun o => ∃ value err w',
            o = Returned (value, err) w' ∧ err = None ∧
            errors_Is err Canceled = false ∧ errors_Is err DeadlineExceeded = false)
         (Get ctx getter (TestGet.addresses tt) (TestGet.key tt) w0) ∧
  TestGet.run tt w0 = [Returned (TestGet.Fatalf_error None true) w0].
Proof.
  vm_compute. repeat split. repeat constructor. by eexists _, _, _.
Qed.

(** C4: on the row "fast address beats slow one", the attempt at addr2
    succeeds with "value2" at 50ms and the attempt at addr1 succeeds with
    "value1" at 200ms, both before the deadline of 300ms; [Get] returns the
    empty string, not "value2", and the row stops at its check of the
    value. *)
Theorem Get_misses_the_faster_attempt :
  let tt := TestGet.fast_beats_slow in
  let ctx := deadline_ctx (TestGet.ttl tt) in
  let getter := TestGet.getter_of tt in
  WithTimeout Background (TestGet.ttl tt) w0 = [Returned ctx w0] ∧
  completion_times getter ctx "addr2" (TestGet.key tt) w0 = [50 * Millisecond] ∧
  attempt_always (succeeds_with "value2" ctx) getter ctx "addr2" (TestGet.key tt) w0 = true ∧
  completion_times getter ctx "addr1" (TestGet.key tt) w0 = [200 * Millisecond] ∧
  attempt_always (succeeds_with "value1" ctx) getter ctx "addr1" (TestGet.key tt) w0 = true ∧
  Get ctx getter (TestGet.addresses tt) (TestGet.key tt) w0
  = [Returned (""%string, None) w0] ∧
  TestGet.run tt w0 = [Returned (TestGet.Fatalf_value "" "value2") w0].
Proof. vm_compute. repeat split. Qed.

(** C8: on the row "duplicate addresses", the address list without its
    repetitions has two addresses, and a call through the interface at
    either of them is recorded; [Get] comes back with no call recorded, so
    it has started no attempt. *)
Theorem Get_starts_no_attempt :
  let tt := TestGet.duplicate_addresses in
  let ctx := deadline_ctx (TestGet.ttl tt) in
  let getter := TestGet.getter_of tt in
  spec_dedup (TestGet.addresses tt) = ["addr1"; "addr2"]%string ∧
  map (fun a => map (fun o => addresses_queried w0 (outcome_world o))
                    (Getter_call getter ctx a (TestGet.key tt) w0))
      (spec_dedup (TestGet.addresses tt))
  = [[["addr1"]]; [["addr2"]]]%string ∧
  map (fun o => addresses_queried w0 (outcome_world o))
      (Get ctx getter (TestGet.addresses tt) (TestGet.key tt) w0)
  = [[]] ∧
  TestGet.run tt w0 = [Returned (TestGet.Fatalf_value "" "value2") w0].
Proof. vm_compute. repeat split. Qed.

(** ** The test double, case by case *)


Lemma advance_advance (t : Z) (w : World) :
  advance (Z.max t (now w)) w = advance t w.
Proof. unfold advance. simpl. f_equal. lia. Qed.

Lemma Context_Err_done (ctx : Context) (d : Z) (w : World) :
  done_at ctx = Some d → d <= now w →
  Context_Err ctx w = [Returned (Some (ctxErr (done_err ctx))) w].
Proof.
  intros Hd Hle. unfold Context_Err. rewrite Hd.
  by destruct (Z.leb_spec d (now w)); [|lia].
Qed.

Lemma MockGetter_Get_stored_None (m : MockGetter) (ctx : Context) (address key : string)
  (w : World) :
  stored m address key = None →
  MockGetter_Get m ctx address key w
  = [Returned (""%string, Some (errorString "key not found")) w].
Proof.
  unfold stored, MockGetter_Get. destruct (Responses m !! address) as [rs|]; simpl; [|done].
  by intros ->.
Qed.

(** The body run for a response that is held. *)
Lemma MockGetter_Get_stored_Some (m : MockGetter) (ctx : Context) (address key : string)
  (resp : Response) (w : World) :
  stored m address key = Some resp →
  MockGetter_Get m ctx address key w
  = bind (if 0 <? Delay resp then select_After_Done (Delay resp) ctx else ret After_fired)
         (fun s => match s with
                   | Done_closed => bind (Context_Err ctx) (fun e => ret (""%string, e))
                   | After_fired => ret (served resp)
                   end) w.
Proof.
  unfold stored, MockGetter_Get, served.
  destruct (Responses m !! address) as [rs|]; simpl; [|done].
  intros ->. by destruct (Error resp).
Qed.

(** The outcomes of the test double for a response that is held, by the
    order of the instant [t] its delay is over and the instant [d] the
    context is done. *)
Lemma MockGetter_Get_outcomes (m : MockGetter) (ctx : Context) (address key : string)
  (resp : Response) (w : World) :
  stored m address key = Some resp →
  MockGetter_Get m ctx address key w
  = if 0 <? Delay resp then
      let t := now w + Delay resp in
      let canceled := Returned (""%string, Some (ctxErr (done_err ctx))) in
      match done_at ctx with
      | None => [Returned (served resp) (advance t w)]
      | Some d =>
          if d <? t then [canceled (advance d w)]
          else if t <? d then [Returned (served resp) (advance t w)]
          else [Returned (served resp) (advance t w); canceled (advance t w)]
      end
    else [Returned (served resp) w].
Proof.
  intros Hs. rewrite (MockGetter_Get_stored_Some _ _ _ _ _ _ Hs).
  destruct (Z.ltb_spec 0 (Delay resp)) as [Hpos|Hnpos]; [|by rewrite bind_ret_l].
  cbv zeta. unfold bind at 1. unfold select_After_Done.
  rewrite (Z.max_l (Delay resp) 0) by lia.
  destruct (done_at ctx) as [d|] eqn:Hd; [|reflexivity].
  destruct (Z.ltb_spec d (now w + Delay resp)) as [H1|H1].
  - destruct (Z.ltb_spec (Z.max d (now w)) (now w + Delay resp)); [|lia].
    simpl. rewrite advance_advance.
    unfold bind. rewrite (Context_Err_done ctx d); [reflexivity|done|simpl; lia].
  - destruct (Z.ltb_spec (Z.max d (now w)) (now w + Delay resp)); [lia|].
    destruct (Z.ltb_spec (now w + Delay resp) d) as [H2|H2].
    + destruct (Z.ltb_spec (now w + Delay resp) (Z.max d (now w))); [|lia]. reflexivity.
    + destruct (Z.ltb_spec (now w + Delay resp) (Z.max d (now w))); [lia|].
      simpl. unfold bind. rewrite (Context_Err_done ctx d); [reflexivity|done|simpl; lia].
Qed.

(** Case analysis on what the test double holds and on the order of the
    instants, leaving the explicit list of outcomes in each case. *)
Ltac mock_cases m ctx address key :=
  let resp := fresh "resp" in
  let Hs := fresh "Hs" in
  destruct (stored m address key) as [resp|] eqn:Hs;
  [ rewrite (MockGetter_Get_outcomes _ _ _ _ _ _ Hs); cbv zeta; unfold served;
    destruct (Error resp) eqn:?;
    (destruct (Z.ltb_spec 0 (Delay resp));
     [ destruct (done_at ctx) eqn:?;
       [ match goal with
         | |- context [ ?d <? ?t ] =>
             destruct (Z.ltb_spec d t); [|destruct (Z.ltb_spec t d)]
         end
       | ]
     | ])
  | rewrite (MockGetter_Get_stored_None _ _ _ _ _ Hs) ].

(** One goal for each outcome of an explicit list. *)
Ltac each_outcome :=
  repeat first [apply Forall_nil_2 | apply Forall_cons_2]; simpl.

(** X1: An address or a key the test double does not hold: the answer comes at
    once, in any context, and is the error "key not found" with the empty
    value; an address held with no response for the key is as an address
    not held. *)
Theorem MockGetter_Get_key_not_found (m : MockGetter) (ctx : Context)
  (address key : string) (w : World) :
  (Responses m !! address = None ∨
   ∃ responses, Responses m !! address = Some responses ∧ responses !! key = None) →
  MockGetter_Get m ctx address key w
  = [Returned (""%string, Some (errorString "key not found")) w].
Proof.
  intros H. apply MockGetter_Get_stored_None. unfold stored.
  destruct H as [->|(rs & -> & Hk)]; [done|exact Hk].
Qed.

Lemma MockGetter_Get_key_not_found_witness :
  (Responses (NewMockGetter (TestGet.responses TestGet.single_address_key_absent))
     !! "addr1"%string = None ∨
   ∃ responses,
     Responses (NewMockGetter (TestGet.responses TestGet.single_address_key_absent))
       !! "addr1"%string = Some responses ∧ responses !! "key1"%string = None) ∧
  MockGetter_Get (NewMockGetter (TestGet.responses TestGet.single_address_key_absent))
                 (deadline_ctx 0) "addr1" "key1" w0
  = [Returned (""%string, Some (errorString "key not found")) w0].
Proof.
  assert (Responses (NewMockGetter (TestGet.responses TestGet.single_address_key_absent))
            !! "addr1"%string = None ∨
          ∃ responses,
            Responses (NewMockGetter (TestGet.responses TestGet.single_address_key_absent))
              !! "addr1"%string = Some responses ∧ responses !! "key1"%string = None) as H.
  { right. exists ∅. split; reflexivity. }
  split; [exact H|].
  exact (MockGetter_Get_key_not_found _ (deadline_ctx 0) "addr1" "key1" w0 H).
Defined.

(** X2: A response without a positive delay is given at once and without a
    look at the context: also when the context is already done. *)
Theorem MockGetter_Get_no_delay (m : MockGetter) (ctx : Context) (address key : string)
  (resp : Response) (w : World) :
  stored m address key = Some resp →
  Delay resp <= 0 →
  MockGetter_Get m ctx address key w = [Returned (served resp) w].
Proof.
  intros Hs Hd. rewrite (MockGetter_Get_outcomes _ _ _ _ _ _ Hs).
  by destruct (Z.ltb_spec 0 (Delay resp)); [lia|].
Qed.

Lemma MockGetter_Get_no_delay_witness :
  stored (NewMockGetter (TestGet.responses TestGet.first_fails_second_succeeds))
         "addr2" "key1" = Some (TestGet.valued "value2" 0) ∧
  Delay (TestGet.valued "value2" 0) <= 0 ∧
  MockGetter_Get (NewMockGetter (TestGet.responses TestGet.first_fails_second_succeeds))
                 (deadline_ctx 0) "addr2" "key1" w0
  = [Returned (served (TestGet.valued "value2" 0)) w0].
Proof.
  split; [reflexivity|]. split; [simpl; lia|].
  apply (MockGetter_Get_no_delay _ (deadline_ctx 0) "addr2" "key1"
           (TestGet.valued "value2" 0) w0); [reflexivity|simpl; lia].
Defined.

(** X3: A response with a positive delay, in a context that is not done by the
    end of the delay: the response is given when the delay is over,
    exactly. *)
Theorem MockGetter_Get_after_delay (m : MockGetter) (ctx : Context) (address key : string)
  (resp : Response) (w : World) :
  stored m address key = Some resp →
  0 < Delay resp →
  before_done ctx (now w + Delay resp) = true →
  MockGetter_Get m ctx address key w
  = [Returned (served resp) {| now := now w + Delay resp; calls := calls w |}].
Proof.
  intros Hs Hd Hb. rewrite (MockGetter_Get_outcomes _ _ _ _ _ _ Hs).
  destruct (Z.ltb_spec 0 (Delay resp)); [|lia]. cbv zeta.
  assert (advance (now w + Delay resp) w
          = {| now := now w + Delay resp; calls := calls w |}) as ->.
  { unfold advance. f_equal. lia. }
  unfold before_done in Hb. destruct (done_at ctx) as [d|]; [|done].
  apply Z.ltb_lt in Hb.
  destruct (Z.ltb_spec d (now w + Delay resp)); [lia|].
  by destruct (Z.ltb_spec (now w + Delay resp) d); [|lia].
Qed.

Lemma MockGetter_Get_after_delay_witness :
  stored (NewMockGetter (TestGet.responses TestGet.fast_beats_slow)) "addr2" "key1"
  = Some (TestGet.valued "value2" (50 * Millisecond)) ∧
  0 < Delay (TestGet.valued "value2" (50 * Millisecond)) ∧
  before_done (deadline_ctx (300 * Millisecond))
              (now w0 + Delay (TestGet.valued "value2" (50 * Millisecond))) = true ∧
  MockGetter_Get (NewMockGetter (TestGet.responses TestGet.fast_beats_slow))
                 (deadline_ctx (300 * Millisecond)) "addr2" "key1" w0
  = [Returned (served (TestGet.valued "value2" (50 * Millisecond)))
              {| now := now w0 + Delay (TestGet.valued "value2" (50 * Millisecond));
                 calls := calls w0 |}].
Proof.
  split; [reflexivity|]. split; [reflexivity|]. split; [reflexivity|].
  apply (MockGetter_Get_after_delay _ (deadline_ctx (300 * Millisecond)) "addr2" "key1"
           (TestGet.valued "value2" (50 * Millisecond)) w0); reflexivity.
Defined.



(** X5: A response with a positive delay, in a context done at the very instant
    the delay is over: both cases of the [select] are ready, and the call
    gives either the response or the error of the context. *)
Theorem MockGetter_Get_tie (m : MockGetter) (ctx : Context) (address key : string)
  (resp : Response) (w : World) :
  stored m address key = Some resp →
  0 < Delay resp →
  done_at ctx = Some (now w + Delay resp) →
  MockGetter_Get m ctx address key w
  = [Returned (served resp) {| now := now w + Delay resp; calls := calls w |};
     Returned (""%string, Some (ctxErr (done_err ctx)))
              {| now := now w + Delay resp; calls := calls w |}].
Proof.
  intros Hs Hpos Hd.
  rewrite (MockGetter_Get_outcomes _ _ _ _ _ _ Hs).
  destruct (Z.ltb_spec 0 (Delay resp)); [|lia]. cbv zeta. rewrite Hd.
  rewrite Z.ltb_irrefl.
  assert (advance (now w + Delay resp) w
          = {| now := now w + Delay resp; calls := calls w |}) as ->; [|done].
  unfold advance. f_equal. lia.
Qed.

Lemma MockGetter_Get_tie_witness :
  stored (NewMockGetter (TestGet.responses TestGet.context_cancel)) "addr1" "key1"
  = Some (TestGet.valued "value1" (200 * Millisecond)) ∧
  0 < Delay (TestGet.valued "value1" (200 * Millisecond)) ∧
  done_at (deadline_ctx (200 * Millisecond))
  = Some (now w0 + Delay (TestGet.valued "value1" (200 * Millisecond))) ∧
  MockGetter_Get (NewMockGetter (TestGet.responses TestGet.context_cancel))
                 (deadline_ctx (200 * Millisecond)) "addr1" "key1" w0
  = [Returned (served (TestGet.valued "value1" (200 * Millisecond)))
              {| now := now w0 + Delay (TestGet.valued "value1" (200 * Millisecond));
                 calls := calls w0 |};
     Returned (""%string, Some (ctxErr (done_err (deadline_ctx (200 * Millisecond)))))
              {| now := now w0 + Delay (TestGet.valued "value1" (200 * Millisecond));
                 calls := calls w0 |}].
Proof.
  split; [reflexivity|]. split; [reflexivity|]. split; [reflexivity|].
  apply (MockGetter_Get_tie _ (deadline_ctx (200 * Millisecond)) "addr1" "key1"
           (TestGet.valued "value1" (200 * Millisecond)) w0); reflexivity.
Defined.

(** X6: The test double never gives a value together with an error: whenever
    the error is not nil the value is the empty string. *)
Theorem MockGetter_Get_error_has_no_value (m : MockGetter) (ctx : Context)
  (address key : string) (w : World) :
  Forall (fun o => match o with
                   | Returned (value, Some _) _ => value = ""%string
                   | _ => True
                   end)
         (MockGetter_Get m ctx address key w).
Proof.
  mock_cases m ctx address key; by each_outcome.
Qed.

(** X7: A nil error comes only with the value of the response held for the
    address and the key, and only when that response has no error. *)
Theorem MockGetter_Get_success_is_held (m : MockGetter) (ctx : Context)
  (address key : string) (w : World) :
  Forall (fun o => match o with
                   | Returned (value, None) _ =>
                       ∃ resp, stored m address key = Some resp ∧
                               Error resp = None ∧ value = Value resp
                   | _ => True
                   end)
         (MockGetter_Get m ctx address key w).
Proof.
  mock_cases m ctx address key; each_outcome; try done; by eexists.
Qed.

(** X8: Every error the test double gives is the error of the response held,
    or "key not found" when none is held, or the error of a context that
    is done by then. *)
Theorem MockGetter_Get_error_origin (m : MockGetter) (ctx : Context)
  (address key : string) (w : World) :
  Forall (fun o => match o with
                   | Returned (_, Some e) w' =>
                       (stored m address key = None ∧ e = errorString "key not found") ∨
                       (∃ resp, stored m address key = Some resp ∧ Error resp = Some e) ∨
                       (e = ctxErr (done_err ctx) ∧
                        ∃ d, done_at ctx = Some d ∧ d <= now w')
                   | _ => True
                   end)
         (MockGetter_Get m ctx address key w).
Proof.
  mock_cases m ctx address key; each_outcome; try done.
  all: try (right; left; by eexists).
  all: try (right; right; split; [done|]; eexists; split; [done|]; simpl; lia).
  by left.
Qed.


(** X10: The answer for an address and a key depends on the table of responses
    through the response held for that address and that key only. *)
Theorem MockGetter_Get_local (m1 m2 : MockGetter) (ctx : Context) (address key : string)
  (w : World) :
  stored m1 address key = stored m2 address key →
  MockGetter_Get m1 ctx address key w = MockGetter_Get m2 ctx address key w.
Proof.
  intros H. destruct (stored m2 address key) as [resp|] eqn:H2.
  - rewrite (MockGetter_Get_stored_Some _ _ _ _ _ _ H).
    by rewrite (MockGetter_Get_stored_Some _ _ _ _ _ _ H2).
  - rewrite (MockGetter_Get_stored_None _ _ _ _ _ H).
    by rewrite (MockGetter_Get_stored_None _ _ _ _ _ H2).
Qed.

Lemma MockGetter_Get_local_witness :
  stored (NewMockGetter (TestGet.responses TestGet.first_fails_second_succeeds))
         "addr2" "key1"
  = stored (NewMockGetter (TestGet.responses TestGet.duplicate_addresses))
           "addr2" "key1" ∧
  MockGetter_Get (NewMockGetter (TestGet.responses TestGet.first_fails_second_succeeds))
                 Background "addr2" "key1" w0
  = MockGetter_Get (NewMockGetter (TestGet.responses TestGet.duplicate_addresses))
                   Background "addr2" "key1" w0.
Proof.
  split; [reflexivity|].
  apply (MockGetter_Get_local _ _ Background "addr2" "key1" w0). reflexivity.
Defined.



(** ** The rows of TestGet *)

(** What a row reports, [Get] being what it is: the row ends in the world
    it starts in, with one report. *)
Lemma TestGet_run_report (tt : TestGet.case) (w : World) :
  ∃ v, TestGet.run tt w = [Returned v w] ∧
       (v = TestGet.pass ↔
        TestGet.wantErr tt = false ∧ TestGet.wantErrIs tt = None ∧
        TestGet.wantValue tt = ""%string).
Proof.
  unfold TestGet.run, bind. rewrite WithTimeout_Background. simpl.
  destruct (TestGet.wantErr tt); simpl.
  - eexists. split; [reflexivity|]. split; [done|]. by intros [? _].
  - destruct (TestGet.wantErrIs tt) as [target|]; simpl.
    + eexists. split; [reflexivity|]. split; [done|]. by intros (_ & ? & _).
    + destruct (TestGet.wantValue tt) as [|c s]; simpl.
      * eexists. split; [reflexivity|]. done.
      * eexists. split; [reflexivity|]. split; [done|]. by intros (_ & _ & ?).
Qed.

(** X12: A row of the table reports nothing exactly when it wants no error, no
    match of the error with a sentinel, and the empty value; in every case
    it reports once and leaves the clock and the record of calls as they
    were. *)
Theorem TestGet_run_passes_iff (tt : TestGet.case) (w : World) :
  (TestGet.run tt w = [Returned TestGet.pass w] ↔
   TestGet.wantErr tt = false ∧ TestGet.wantErrIs tt = None ∧
   TestGet.wantValue tt = ""%string) ∧
  ∃ v, TestGet.run tt w = [Returned v w].
Proof.
  destruct (TestGet_run_report tt w) as (v & Hrun & Hv). split; [|by eexists].
  rewrite Hrun, <- Hv. split; [by intros [= ->]|by intros ->].
Qed.

(** X13: The rows run one after the other give one report each, in the order of
    the rows: a row that stops at a [t.Fatalf] does not stop the rows after
    it, and each report is that of the row run alone. *)
Theorem TestGet_run_rows_reports (rows : list TestGet.case) (w : World) :
  ∃ vs, TestGet.run_rows rows w = [Returned vs w] ∧
        Forall2 (fun tt v => TestGet.run tt w = [Returned v w]) rows vs.
Proof.
  induction rows as [|tt rows (vs & Hrows & Hall)]; simpl.
  - exists []. split; [reflexivity|constructor].
  - destruct (TestGet_run_report tt w) as (v & Hrun & _).
    exists (v :: vs). split; [|by constructor].
    unfold bind at 1. rewrite Hrun. simpl. rewrite app_nil_r.
    unfold bind at 1. rewrite Hrows. reflexivity.
Qed.
